(** * custom_tooltip_flutter: the method-call handler of the Linux plugin

    Shallow embedding of [linux/custom_tooltip_flutter_plugin.cc].  The file
    has one piece of behaviour: the handler that the method channel invokes
    for every call coming from the Dart side.  It compares the call's name
    with ["getPlatformVersion"], builds a response and hands it to
    [fl_method_call_respond].

    The handler has two effects: it reads the kernel's identification with
    [uname(2)] and it sends a response on the channel.  Both are threaded
    through an explicit [World] by a small state monad, so that "what the
    handler leaves behind" is a value one can state theorems about.

    [windows/custom_tooltip_flutter_plugin_c_api.cpp] only forwards the
    registration to the plugin class and decides nothing about a call.

    The rest of the Linux file creates the plugin object and sets the
    handler on the channel.  Module [Registration] follows the reference
    count of the plugin object and the handler of each channel through
    [custom_tooltip_flutter_plugin_register_with_registrar]. *)

From Stdlib Require Import ZArith List Ascii String Bool Lia.
Import ListNotations.

Open Scope string_scope.
Open Scope Z_scope.

(* ================================================================== *)
(** ** C strings, [strcmp] and the one [printf] directive in use *)

Module CString.

(** The terminator of a C string. *)
Definition NUL : ascii := Ascii.zero.

(** A byte seen as [unsigned char]. *)
Definition uchar (c : ascii) : Z := Z.of_N (N_of_ascii c).

(** A [char] buffer is modelled by the bytes it holds; the end of the Rocq
    string stands for the terminating NUL.  [c_str buf] is the C string
    found at the start of the buffer: the bytes before the first NUL. *)
Fixpoint c_str (buf : string) : string :=
  match buf with
  | EmptyString => EmptyString
  | String c rest =>
      if Ascii.eqb c NUL then EmptyString else String c (c_str rest)
  end.

(** [n] NUL bytes: a zero-initialised [char[n]]. *)
Fixpoint zeros (n : nat) : string :=
  match n with
  | O => EmptyString
  | S n' => String NUL (zeros n')
  end.

(** [strcmp]: walk both strings while the bytes agree and are not NUL,
    then return the difference of the two bytes as [unsigned char].  The
    handler only looks at whether the result is zero. *)
Fixpoint strcmp (s1 s2 : string) : Z :=
  match s1, s2 with
  | EmptyString, EmptyString => 0
  | EmptyString, String c2 _ => 0 - uchar c2
  | String c1 _, EmptyString => uchar c1
  | String c1 r1, String c2 r2 =>
      if Ascii.eqb c1 c2
      then (if Ascii.eqb c1 NUL then 0 else strcmp r1 r2)
      else uchar c1 - uchar c2
  end.

(** [g_strdup_printf], for the directives this program needs: [%s] prints
    the next argument as a C string, [%%] prints a percent sign and every
    other byte of the format is copied.  A [%s] without an argument prints
    nothing. *)
Fixpoint g_strdup_printf (format : string) (args : list string) : string :=
  match format with
  | EmptyString => EmptyString
  | String c rest =>
      if Ascii.eqb c "%"%char then
        match rest with
        | EmptyString => EmptyString
        | String d rest' =>
            if Ascii.eqb d "s"%char then
              match args with
              | a :: args' => c_str a ++ g_strdup_printf rest' args'
              | [] => g_strdup_printf rest' []
              end
            else String d (g_strdup_printf rest' args)
        end
      else String c (g_strdup_printf rest args)
  end.

End CString.

(* ================================================================== *)
(** ** The part of the Flutter Linux embedder the handler talks to *)

Module Flutter.

(** [FlValue]: the values the standard method codec carries. *)
#[warnings="-register-all"] Inductive FlValue : Type :=
| FlNull
| FlBool (b : bool)
| FlInt (i : Z)
| FlString (s : string)
| FlList (l : list FlValue).

(** [fl_value_new_string] copies the C string it is given. *)
Definition fl_value_new_string (value : string) : FlValue :=
  FlString (CString.c_str value).

(** [FlMethodCall]: the name and the arguments of one call. *)
Record FlMethodCall : Type := {
  name : string;
  args : FlValue
}.

Definition fl_method_call_get_name (method_call : FlMethodCall) : string :=
  name method_call.

(** [FlMethodResponse] and its three subclasses. *)
Inductive FlMethodResponse : Type :=
| FlMethodSuccessResponse (result : FlValue)
| FlMethodNotImplementedResponse
| FlMethodErrorResponse (code message : string) (details : FlValue).

Definition fl_method_success_response_new (result : FlValue)
  : FlMethodResponse :=
  FlMethodSuccessResponse result.

Definition fl_method_not_implemented_response_new : FlMethodResponse :=
  FlMethodNotImplementedResponse.

End Flutter.

(* ================================================================== *)
(** ** The host: [struct utsname] and [uname] *)

Module Host.

(** Length of each field of [struct utsname] on Linux. *)
Definition UTSNAME_LENGTH : nat := 65.

(** [struct utsname]: each field is a [char] buffer. *)
Record utsname : Type := {
  sysname : string;
  nodename : string;
  release : string;
  version : string;
  machine : string;
  domainname : string
}.

(** [struct utsname uname_data = {}]: every byte is zero. *)
Definition utsname_zero : utsname :=
  let z := CString.zeros UTSNAME_LENGTH in
  {| sysname := z; nodename := z; release := z;
     version := z; machine := z; domainname := z |}.

(** What the kernel answers to [uname]: the structure it would write, or
    [None] when the call fails. *)
Record Kernel : Type := {
  kernel_uname : option utsname
}.

End Host.

(* ================================================================== *)
(** ** The world and its state monad *)

Module World.
Import Flutter Host.

(** The world the handler runs in: the kernel it may query and the
    responses the channel has been handed so far, oldest first. *)
Record World : Type := {
  kernel : Kernel;
  responded : list (FlMethodCall * FlMethodResponse)
}.

Definition M (A : Type) : Type := World -> A * World.

Definition ret {A : Type} (a : A) : M A := fun w => (a, w).

Definition bind {A B : Type} (m : M A) (k : A -> M B) : M B :=
  fun w => let (a, w') := m w in k a w'.

(** [uname(buf)]: on success the kernel fills the buffer and the result
    is 0; on failure the result is -1 and the buffer is left as it was. *)
Definition uname (buf : utsname) : M (Z * utsname) :=
  fun w =>
    match kernel_uname (kernel w) with
    | Some u => ((0, u), w)
    | None => ((-1, buf), w)
    end.

(** [fl_method_call_respond(method_call, response, error)]: the response
    is handed to the channel. *)
Definition fl_method_call_respond
    (method_call : FlMethodCall) (response : FlMethodResponse) : M bool :=
  fun w =>
    (true, {| kernel := kernel w;
              responded := responded w ++ [(method_call, response)] |}).

End World.

Declare Scope monad_scope.
Delimit Scope monad_scope with monad.
Notation "x <- m ;; k" := (World.bind m (fun x => k))
  (at level 61, m at next level, right associativity) : monad_scope.
Notation "m ;;; k" := (World.bind m (fun _ => k))
  (at level 61, right associativity) : monad_scope.

(* ================================================================== *)
(** ** The plugin *)

Module Plugin.
Import CString Flutter Host World.
Open Scope monad_scope.

Record GObject : Type := { ref_count : positive }.

(** [struct _CustomTooltipFlutterPlugin]. *)
Record CustomTooltipFlutterPlugin : Type := {
  parent_instance : GObject
}.

(** [get_platform_version]: the result of [uname] is not looked at; the
    [version] field of the buffer is printed after the literal
    ["Linux "]. *)
Definition get_platform_version : M FlMethodResponse :=
  let uname_data := utsname_zero in
  r <- uname uname_data ;;
  let uname_data := snd r in
  let version := g_strdup_printf "Linux %s" [version uname_data] in
  let result := fl_value_new_string version in
  ret (fl_method_success_response_new result).

(** Called when a method call is received from Flutter. *)
Definition custom_tooltip_flutter_plugin_handle_method_call
    (self : CustomTooltipFlutterPlugin) (method_call : FlMethodCall)
  : M unit :=
  let method := fl_method_call_get_name method_call in
  response <-
    (if strcmp method "getPlatformVersion" =? 0
     then get_platform_version
     else ret fl_method_not_implemented_response_new) ;;
  fl_method_call_respond method_call response ;;;
  ret tt.

(** [method_call_cb]: the callback registered on the channel; [user_data]
    is the plugin object. *)
Definition method_call_cb
    (method_call : FlMethodCall) (user_data : CustomTooltipFlutterPlugin)
  : M unit :=
  let plugin := user_data in
  custom_tooltip_flutter_plugin_handle_method_call plugin method_call.

End Plugin.

(* ================================================================== *)
(** ** The specification's reading of the version string *)

Module Spec.
Import CString Host.

(** The specification's words: the string is ["<OS family> <release>"],
    the family name, a space and the release string.  In [struct utsname]
    these are the fields [sysname] and [release]. *)
Definition family_release (u : utsname) : string :=
  c_str (sysname u) ++ " " ++ c_str (release u).

End Spec.

(* ================================================================== *)
(** ** Concrete hosts and calls used in the examples *)

Module Examples.
Import CString Flutter Host World Plugin.

(** A field of [struct utsname] holding [s], padded with NUL bytes. *)
Definition field (s : string) : string :=
  s ++ zeros (UTSNAME_LENGTH - String.length s).

(** What [uname] reports on an Ubuntu 22.04 machine. *)
Definition ubuntu : utsname :=
  {| sysname := field "Linux";
     nodename := field "build-host";
     release := field "5.15.0-91-generic";
     version := field "#101-Ubuntu SMP Tue Nov 14 13:30:08 UTC 2023";
     machine := field "x86_64";
     domainname := field "(none)" |}.

Definition ubuntu_kernel : Kernel := {| kernel_uname := Some ubuntu |}.

(** A kernel whose [uname] fails. *)
Definition failing_kernel : Kernel := {| kernel_uname := None |}.

Definition fresh (k : Kernel) : World := {| kernel := k; responded := [] |}.

Definition plugin : CustomTooltipFlutterPlugin :=
  {| parent_instance := {| ref_count := 1%positive |} |}.

Definition call_version : FlMethodCall :=
  {| name := "getPlatformVersion"; args := FlNull |}.

Definition call_other : FlMethodCall :=
  {| name := "doSomethingElse"; args := FlNull |}.

Definition call_empty : FlMethodCall :=
  {| name := ""; args := FlNull |}.

Definition call_cased : FlMethodCall :=
  {| name := "GetPlatformVersion"; args := FlList [FlInt 1; FlBool true] |}.

End Examples.

(* ================================================================== *)
(** ** Reading the world after a run *)

Module Observe.
Import CString Flutter Host World.

(** The world [w] after one more response [r] was sent for call [c]:
    the kernel is as before and the channel has exactly one more entry. *)
Definition after (w : World) (c : FlMethodCall) (r : FlMethodResponse)
  : World :=
  {| kernel := kernel w; responded := responded w ++ [(c, r)] |}.

(** The C string in the [version] field that [uname] reports; empty when
    the call fails, since the buffer then still holds its zero bytes. *)
Definition reported_version (k : Kernel) : string :=
  match kernel_uname k with
  | Some u => c_str (version u)
  | None => ""
  end.

End Observe.

(* ================================================================== *)
(** ** Plugin objects, the method channel and registration *)

Module Registration.
Import CString Flutter Host World Plugin.

(** A pointer to a plugin object. *)
Definition gpointer : Type := nat.

(** The plugin objects that are alive, by address, and the address the
    next [g_object_new] will use.  An address is never handed out twice. *)
Record Heap : Type := {
  instances : gpointer -> option CustomTooltipFlutterPlugin;
  next_instance : gpointer
}.

Definition store (h : Heap) (object : gpointer)
    (o : option CustomTooltipFlutterPlugin) : Heap :=
  {| instances := fun a => if Nat.eqb a object then o else instances h a;
     next_instance := next_instance h |}.

(** The class structure: the one virtual method the plugin touches. *)
Record GObjectClass : Type := {
  dispose : gpointer -> Heap -> Heap
}.

(** [custom_tooltip_flutter_plugin_parent_class]: [GObject]'s own class.
    Its [dispose] releases nothing that lives in this heap. *)
Definition custom_tooltip_flutter_plugin_parent_class : GObjectClass :=
  {| dispose := fun _ h => h |}.

(** [custom_tooltip_flutter_plugin_dispose]: chain up to the parent. *)
Definition custom_tooltip_flutter_plugin_dispose
    (object : gpointer) (h : Heap) : Heap :=
  dispose custom_tooltip_flutter_plugin_parent_class object h.

(** [custom_tooltip_flutter_plugin_class_init]: install [dispose]. *)
Definition custom_tooltip_flutter_plugin_class_init
    (klass : GObjectClass) : GObjectClass :=
  {| dispose := custom_tooltip_flutter_plugin_dispose |}.

(** [custom_tooltip_flutter_plugin_init]: the body is empty. *)
Definition custom_tooltip_flutter_plugin_init
    (self : CustomTooltipFlutterPlugin) : CustomTooltipFlutterPlugin :=
  self.

(** What [G_DEFINE_TYPE] registers: the class, initialised from the
    parent's, and the instance initialiser. *)
Record GType : Type := {
  type_class : GObjectClass;
  type_instance_init : CustomTooltipFlutterPlugin -> CustomTooltipFlutterPlugin
}.

Definition custom_tooltip_flutter_plugin_get_type : GType :=
  {| type_class :=
       custom_tooltip_flutter_plugin_class_init
         custom_tooltip_flutter_plugin_parent_class;
     type_instance_init := custom_tooltip_flutter_plugin_init |}.

(** [g_object_new]: a new object with one reference. *)
Definition g_object_new (type : GType) (h : Heap) : gpointer * Heap :=
  let object := next_instance h in
  let o := type_instance_init type
             {| parent_instance := {| ref_count := 1%positive |} |} in
  (object,
   {| instances :=
        fun a => if Nat.eqb a object then Some o else instances h a;
      next_instance := S object |}).

(** [g_object_ref]: one more reference; the pointer is returned. *)
Definition g_object_ref (object : gpointer) (h : Heap) : gpointer * Heap :=
  match instances h object with
  | Some o =>
      (object,
       store h object
         (Some {| parent_instance :=
                    {| ref_count :=
                         Pos.succ (ref_count (parent_instance o)) |} |}))
  | None => (object, h)
  end.

(** [g_object_unref]: one reference less; with the last one the object is
    disposed of and its memory released. *)
Definition g_object_unref (object : gpointer) (h : Heap) : Heap :=
  match instances h object with
  | Some o =>
      if Pos.eqb (ref_count (parent_instance o)) 1
      then
        let h := dispose (type_class custom_tooltip_flutter_plugin_get_type)
                   object h in
        store h object None
      else
        store h object
          (Some {| parent_instance :=
                     {| ref_count :=
                          Pos.pred (ref_count (parent_instance o)) |} |})
  | None => h
  end.

(** [CUSTOM_TOOLTIP_FLUTTER_PLUGIN(obj)]: the pointer seen as a plugin;
    there is one only while the object is alive. *)
Definition CUSTOM_TOOLTIP_FLUTTER_PLUGIN (h : Heap) (obj : gpointer)
  : option CustomTooltipFlutterPlugin :=
  instances h obj.

Definition FlBinaryMessenger : Type := nat.

Record FlPluginRegistrar : Type := {
  registrar_messenger : FlBinaryMessenger
}.

Definition fl_plugin_registrar_get_messenger (registrar : FlPluginRegistrar)
  : FlBinaryMessenger :=
  registrar_messenger registrar.

Inductive FlMethodCodec : Type :=
| FlStandardMethodCodec
| FlJsonMethodCodec.

Definition fl_standard_method_codec_new : FlMethodCodec :=
  FlStandardMethodCodec.

(** What [fl_method_channel_set_method_call_handler] stores. *)
Record Handler : Type := {
  handler : FlMethodCall -> CustomTooltipFlutterPlugin -> M unit;
  user_data : gpointer;
  destroy_notify : option (gpointer -> Heap -> Heap)
}.

(** An open channel: its codec and the handler set on it, if any. *)
Record Channel : Type := {
  channel_codec : FlMethodCodec;
  channel_handler : option Handler
}.

(** [FlMethodChannel*]: a channel is known by its messenger and name. *)
Record FlMethodChannel : Type := {
  channel_messenger : FlBinaryMessenger;
  channel_name : string
}.

(** The heap and, for every messenger, the channel open under each name. *)
Record Runtime : Type := {
  heap : Heap;
  channels : FlBinaryMessenger -> string -> option Channel
}.

Definition set_channel (rt : Runtime) (messenger : FlBinaryMessenger)
    (name : string) (c : option Channel)
  : FlBinaryMessenger -> string -> option Channel :=
  fun m n =>
    if (Nat.eqb m messenger && String.eqb n name)%bool then c
    else channels rt m n.

(** A handler is dropped: its [destroy_notify], if set, is called on its
    [user_data]. *)
Definition drop_handler (hd : option Handler) (h : Heap) : Heap :=
  match hd with
  | Some d =>
      match destroy_notify d with
      | Some notify => notify (user_data d) h
      | None => h
      end
  | None => h
  end.

(** The channel under [name] is closed: its handler is dropped and the
    messenger forgets the channel. *)
Definition channel_closed_cb (messenger : FlBinaryMessenger) (name : string)
    (rt : Runtime) : Runtime :=
  match channels rt messenger name with
  | Some c =>
      {| heap := drop_handler (channel_handler c) (heap rt);
         channels := set_channel rt messenger name None |}
  | None => rt
  end.

(** [fl_method_channel_new]: a messenger has one channel per name, so a
    channel already open under the name is closed; the new one has no
    handler yet. *)
Definition fl_method_channel_new (messenger : FlBinaryMessenger)
    (name : string) (codec : FlMethodCodec) (rt : Runtime)
  : FlMethodChannel * Runtime :=
  let name := c_str name in
  let rt := channel_closed_cb messenger name rt in
  ({| channel_messenger := messenger; channel_name := name |},
   {| heap := heap rt;
      channels :=
        set_channel rt messenger name
          (Some {| channel_codec := codec; channel_handler := None |}) |}).

(** [fl_method_channel_set_method_call_handler]: the handler replaces the
    one set before, which is dropped.  On a channel that is closed the new
    handler is not kept and its [destroy_notify] is called at once. *)
Definition fl_method_channel_set_method_call_handler
    (channel : FlMethodChannel)
    (handler : FlMethodCall -> CustomTooltipFlutterPlugin -> M unit)
    (user_data : gpointer)
    (destroy_notify : option (gpointer -> Heap -> Heap))
    (rt : Runtime) : Runtime :=
  let new :=
    {| handler := handler; user_data := user_data;
       destroy_notify := destroy_notify |} in
  match channels rt (channel_messenger channel) (channel_name channel) with
  | Some c =>
      {| heap := drop_handler (channel_handler c) (heap rt);
         channels :=
           set_channel rt (channel_messenger channel) (channel_name channel)
             (Some {| channel_codec := channel_codec c;
                      channel_handler := Some new |}) |}
  | None =>
      {| heap := drop_handler (Some new) (heap rt);
         channels := channels rt |}
  end.

(** [custom_tooltip_flutter_plugin_register_with_registrar].  The local
    references to the codec and to the channel, which the function drops
    when it returns, are not counted: both belong to the embedder. *)
Definition custom_tooltip_flutter_plugin_register_with_registrar
    (registrar : FlPluginRegistrar) (rt : Runtime) : Runtime :=
  let (plugin, h) :=
    g_object_new custom_tooltip_flutter_plugin_get_type (heap rt) in
  let rt := {| heap := h; channels := channels rt |} in
  let codec := fl_standard_method_codec_new in
  let (channel, rt) :=
    fl_method_channel_new (fl_plugin_registrar_get_messenger registrar)
      "custom_tooltip_flutter" codec rt in
  let (user_data, h) := g_object_ref plugin (heap rt) in
  let rt := {| heap := h; channels := channels rt |} in
  let rt :=
    fl_method_channel_set_method_call_handler channel method_call_cb
      user_data (Some g_object_unref) rt in
  {| heap := g_object_unref plugin (heap rt); channels := channels rt |}.

(** What becomes of a call that arrives on a channel. *)
Inductive Delivery : Type :=
| NoChannel
| NoHandler
| DeadObject
| Handled (run : M unit).

(** A call arrives under [name]: the channel invokes its handler on the
    call and on the handler's [user_data]. *)
Definition fl_method_channel_receive (rt : Runtime)
    (messenger : FlBinaryMessenger) (name : string)
    (method_call : FlMethodCall) : Delivery :=
  match channels rt messenger name with
  | None => NoChannel
  | Some c =>
      match channel_handler c with
      | None => NoHandler
      | Some d =>
          match CUSTOM_TOOLTIP_FLUTTER_PLUGIN (heap rt) (user_data d) with
          | None => DeadObject
          | Some plugin => Handled (handler d method_call plugin)
          end
      end
  end.

(** The channel as registration leaves it: the standard codec, and
    [method_call_cb] as the handler, on the object at [p], with
    [g_object_unref] as the notifier. *)
Definition plugin_channel (p : gpointer) : Channel :=
  {| channel_codec := FlStandardMethodCodec;
     channel_handler :=
       Some {| handler := method_call_cb;
               user_data := p;
               destroy_notify := Some g_object_unref |} |}.

(** The plugin is installed on [messenger] with the object at [p]: the
    channel ["custom_tooltip_flutter"] is open as above and the object at
    [p] is alive with exactly one reference. *)
Definition plugin_installed (rt : Runtime) (messenger : FlBinaryMessenger)
    (p : gpointer) : Prop :=
  channels rt messenger "custom_tooltip_flutter" = Some (plugin_channel p) /\
  instances (heap rt) p =
    Some {| parent_instance := {| ref_count := 1%positive |} |}.

(** The runtime before anything was registered. *)
Definition empty_runtime : Runtime :=
  {| heap := {| instances := fun _ => None; next_instance := O |};
     channels := fun _ _ => None |}.

(** The calls of a list handed to the callback one after the other, as
    the channel does with the calls it receives. *)
Fixpoint receive_all (plugin : CustomTooltipFlutterPlugin)
    (calls : list FlMethodCall) : M unit :=
  match calls with
  | [] => ret tt
  | method_call :: rest =>
      bind (method_call_cb method_call plugin)
        (fun _ => receive_all plugin rest)
  end.

End Registration.

Import CString Flutter Host World Plugin Observe.

(* ================================================================== *)
(** ** Facts about C strings *)

Section CStringFacts.

Lemma uchar_zero_iff (c : ascii) : uchar c = 0 <-> c = NUL.
Proof.
  unfold uchar, NUL. split.
  - intros H.
    assert (HN : N_of_ascii c = 0%N) by lia.
    rewrite <- (ascii_N_embedding c), HN. reflexivity.
  - intros ->. reflexivity.
Qed.

Lemma uchar_inj (c1 c2 : ascii) : uchar c1 = uchar c2 -> c1 = c2.
Proof.
  unfold uchar. intros H.
  assert (HN : N_of_ascii c1 = N_of_ascii c2) by lia.
  rewrite <- (ascii_N_embedding c1), <- (ascii_N_embedding c2), HN.
  reflexivity.
Qed.

(** [strcmp] returns zero exactly when the two C strings are the same. *)
Lemma strcmp_zero_iff (s1 s2 : string) :
  strcmp s1 s2 = 0 <-> c_str s1 = c_str s2.
Proof.
  revert s2. induction s1 as [|c1 r1 IH]; intros [|c2 r2]; simpl.
  - tauto.
  - destruct (Ascii.eqb_spec c2 NUL) as [->|Hc2].
    + split; reflexivity.
    + split; [intros H | discriminate].
      exfalso. apply Hc2, uchar_zero_iff. lia.
  - destruct (Ascii.eqb_spec c1 NUL) as [->|Hc1].
    + split; reflexivity.
    + split; [intros H | discriminate].
      exfalso. apply Hc1, uchar_zero_iff. exact H.
  - destruct (Ascii.eqb_spec c1 c2) as [->|Hne].
    + destruct (Ascii.eqb_spec c2 NUL) as [_|Hc2].
      * split; reflexivity.
      * rewrite IH. split; [intros -> | intros H; inversion H]; reflexivity.
    + split.
      * intros H. exfalso. apply Hne, uchar_inj. lia.
      * destruct (Ascii.eqb_spec c1 NUL) as [->|Hc1],
                 (Ascii.eqb_spec c2 NUL) as [->|Hc2];
          try discriminate; try congruence.
Qed.

(** The test the handler makes, as a fact about the name it was given. *)
Lemma strcmp_eqb_true (s1 s2 : string) :
  c_str s1 = c_str s2 -> (strcmp s1 s2 =? 0) = true.
Proof. intros H. apply Z.eqb_eq, strcmp_zero_iff, H. Qed.

Lemma strcmp_eqb_false (s1 s2 : string) :
  c_str s1 <> c_str s2 -> (strcmp s1 s2 =? 0) = false.
Proof. intros H. apply Z.eqb_neq. rewrite strcmp_zero_iff. exact H. Qed.

Lemma c_str_zeros (n : nat) : c_str (zeros n) = "".
Proof. destruct n; reflexivity. Qed.

Lemma c_str_idem (s : string) : c_str (c_str s) = c_str s.
Proof.
  induction s as [|c r IH]; simpl; [reflexivity|].
  destruct (Ascii.eqb_spec c NUL) as [->|Hc]; simpl; [reflexivity|].
  destruct (Ascii.eqb_spec c NUL); [contradiction|]. now rewrite IH.
Qed.

(** A prefix without NUL is read whole, and the reading goes on behind. *)
Lemma c_str_app (a b : string) :
  c_str a = a -> c_str (a ++ b) = a ++ c_str b.
Proof.
  induction a as [|c r IH]; simpl; [reflexivity|].
  destruct (Ascii.eqb_spec c NUL) as [->|Hc]; [discriminate|].
  intros H. inversion H as [Hr]. rewrite Hr. now rewrite (IH Hr).
Qed.

End CStringFacts.

(* ================================================================== *)
(** ** Running [get_platform_version] and the handler *)

Section Runs.

Variable self : CustomTooltipFlutterPlugin.

Lemma printf_Linux (v : string) :
  g_strdup_printf "Linux %s" [v] = "Linux " ++ c_str v.
Proof.
  simpl. repeat f_equal.
  induction (c_str v) as [|c r IH]; simpl; [reflexivity | now rewrite IH].
Qed.

Lemma new_string_Linux (v : string) :
  fl_value_new_string ("Linux " ++ c_str v) = FlString ("Linux " ++ c_str v).
Proof.
  unfold fl_value_new_string.
  rewrite (c_str_app "Linux " (c_str v) eq_refl), c_str_idem. reflexivity.
Qed.

Lemma uname_zero_version : c_str (version utsname_zero) = "".
Proof. apply c_str_zeros. Qed.

(** [get_platform_version] leaves the world as it found it and answers with
    ["Linux "] followed by the reported version. *)
Lemma get_platform_version_run (w : World) :
  get_platform_version w =
  (FlMethodSuccessResponse
     (FlString ("Linux " ++ reported_version (kernel w))), w).
Proof.
  unfold get_platform_version, bind, uname, ret, reported_version,
    fl_method_success_response_new.
  destruct (kernel_uname (kernel w)) as [u|]; cbv zeta; unfold snd.
  - rewrite printf_Linux, new_string_Linux. reflexivity.
  - rewrite printf_Linux, new_string_Linux, uname_zero_version. reflexivity.
Qed.

Lemma handle_known (call : FlMethodCall) (w : World) :
  c_str (name call) = "getPlatformVersion" ->
  custom_tooltip_flutter_plugin_handle_method_call self call w =
  (tt, after w call
         (FlMethodSuccessResponse
            (FlString ("Linux " ++ reported_version (kernel w))))).
Proof.
  intros Hname.
  unfold custom_tooltip_flutter_plugin_handle_method_call, bind,
    fl_method_call_get_name.
  rewrite (strcmp_eqb_true (name call) "getPlatformVersion" Hname).
  rewrite get_platform_version_run. reflexivity.
Qed.

Lemma handle_unknown (call : FlMethodCall) (w : World) :
  c_str (name call) <> "getPlatformVersion" ->
  custom_tooltip_flutter_plugin_handle_method_call self call w =
  (tt, after w call FlMethodNotImplementedResponse).
Proof.
  intros Hname.
  unfold custom_tooltip_flutter_plugin_handle_method_call, bind,
    fl_method_call_get_name.
  rewrite (strcmp_eqb_false (name call) "getPlatformVersion" Hname).
  reflexivity.
Qed.

(** A name without an embedded NUL is its own C string, so for such a name
    "another name" is meant literally. *)
Lemma handle_unknown_plain (call : FlMethodCall) (w : World) :
  c_str (name call) = name call ->
  name call <> "getPlatformVersion" ->
  custom_tooltip_flutter_plugin_handle_method_call self call w =
  (tt, after w call FlMethodNotImplementedResponse).
Proof.
  intros Hplain Hname. apply handle_unknown. now rewrite Hplain.
Qed.

(** Both branches at once. *)
Lemma handle_run (call : FlMethodCall) (w : World) :
  custom_tooltip_flutter_plugin_handle_method_call self call w =
  (tt, after w call
         (if string_dec (c_str (name call)) "getPlatformVersion"
          then FlMethodSuccessResponse
                 (FlString ("Linux " ++ reported_version (kernel w)))
          else FlMethodNotImplementedResponse)).
Proof.
  destruct (string_dec (c_str (name call)) "getPlatformVersion") as [H|H].
  - now apply handle_known.
  - now apply handle_unknown.
Qed.

End Runs.

(* ================================================================== *)
(** ** The dispatch contract *)

Import Examples.

(** C1, as the specification words it, fails on an Ubuntu host: the
    specification asks for the family name and the release
    (["Linux 5.15.0-91-generic"]), the handler answers with the literal
    ["Linux "] and the [version] field of [struct utsname]. *)
Lemma C1_family_release_counterexample :
  c_str (name call_version) = "getPlatformVersion" /\
  kernel_uname (kernel (fresh ubuntu_kernel)) = Some ubuntu /\
  Spec.family_release ubuntu = "Linux 5.15.0-91-generic" /\
  custom_tooltip_flutter_plugin_handle_method_call
    plugin call_version (fresh ubuntu_kernel) =
  (tt, after (fresh ubuntu_kernel) call_version
         (FlMethodSuccessResponse
            (FlString
               "Linux #101-Ubuntu SMP Tue Nov 14 13:30:08 UTC 2023"))) /\
  custom_tooltip_flutter_plugin_handle_method_call
    plugin call_version (fresh ubuntu_kernel) <>
  (tt, after (fresh ubuntu_kernel) call_version
         (FlMethodSuccessResponse
            (FlString (Spec.family_release ubuntu)))).
Proof.
  repeat split; try reflexivity.
  vm_compute. intros H. discriminate H.
Qed.

(** C1 (amended): for every call whose name is ["getPlatformVersion"], when
    [uname] succeeds the handler answers Success with the string made of
    the literal ["Linux "] followed by the [version] field that [uname]
    reported (not the [release] field, and not the reported [sysname]). *)
Theorem C1_linux_version_string
    (self : CustomTooltipFlutterPlugin) (call : FlMethodCall)
    (w : World) (u : utsname) :
  c_str (name call) = "getPlatformVersion" ->
  kernel_uname (kernel w) = Some u ->
  custom_tooltip_flutter_plugin_handle_method_call self call w =
  (tt, after w call
         (FlMethodSuccessResponse
            (FlString ("Linux " ++ c_str (version u))))).
Proof.
  intros Hname Hu. rewrite (handle_known self call w Hname).
  unfold reported_version. rewrite Hu. reflexivity.
Qed.

Lemma C1_linux_version_string_witness :
  c_str (name call_version) = "getPlatformVersion" /\
  kernel_uname (kernel (fresh ubuntu_kernel)) = Some ubuntu /\
  custom_tooltip_flutter_plugin_handle_method_call
    plugin call_version (fresh ubuntu_kernel) =
  (tt, after (fresh ubuntu_kernel) call_version
         (FlMethodSuccessResponse
            (FlString ("Linux " ++ c_str (version ubuntu))))).
Proof.
  split; [reflexivity | split; [reflexivity |]].
  apply (C1_linux_version_string plugin call_version
           (fresh ubuntu_kernel) ubuntu); reflexivity.
Defined.

(** C2: for every call whose name is anything but ["getPlatformVersion"],
    the empty name and names that differ only in case included, the handler
    answers NotImplemented.  The name is the C string the handler is given,
    [c_str (name call)]: the bytes up to the terminator. *)
Theorem C2_other_names_not_implemented
    (self : CustomTooltipFlutterPlugin) (call : FlMethodCall) (w : World) :
  c_str (name call) <> "getPlatformVersion" ->
  custom_tooltip_flutter_plugin_handle_method_call self call w =
  (tt, after w call FlMethodNotImplementedResponse).
Proof. apply handle_unknown. Qed.

Lemma C2_other_names_witness :
  (c_str (name call_empty) <> "getPlatformVersion" /\
   custom_tooltip_flutter_plugin_handle_method_call
     plugin call_empty (fresh ubuntu_kernel) =
   (tt, after (fresh ubuntu_kernel) call_empty
          FlMethodNotImplementedResponse)) /\
  (c_str (name call_cased) <> "getPlatformVersion" /\
   custom_tooltip_flutter_plugin_handle_method_call
     plugin call_cased (fresh ubuntu_kernel) =
   (tt, after (fresh ubuntu_kernel) call_cased
          FlMethodNotImplementedResponse)) /\
  (c_str (name call_other) <> "getPlatformVersion" /\
   custom_tooltip_flutter_plugin_handle_method_call
     plugin call_other (fresh ubuntu_kernel) =
   (tt, after (fresh ubuntu_kernel) call_other
          FlMethodNotImplementedResponse)).
Proof.
  split; [| split]; (split; [simpl; intros H; discriminate H |]).
  - apply (C2_other_names_not_implemented plugin call_empty
             (fresh ubuntu_kernel)).
    simpl; intros H; discriminate H.
  - apply (C2_other_names_not_implemented plugin call_cased
             (fresh ubuntu_kernel)).
    simpl; intros H; discriminate H.
  - apply (C2_other_names_not_implemented plugin call_other
             (fresh ubuntu_kernel)).
    simpl; intros H; discriminate H.
Defined.

(** C3, as stated, fails when [uname] fails: the buffer still holds its
    zero bytes, the version read from it is empty and the answer is
    ["Linux "] with nothing behind it. *)
Lemma C3_empty_suffix_counterexample :
  c_str (name call_version) = "getPlatformVersion" /\
  custom_tooltip_flutter_plugin_handle_method_call
    plugin call_version (fresh failing_kernel) =
  (tt, after (fresh failing_kernel) call_version
         (FlMethodSuccessResponse (FlString "Linux "))) /\
  ~ (exists suffix : string,
        suffix <> "" /\
        custom_tooltip_flutter_plugin_handle_method_call
          plugin call_version (fresh failing_kernel) =
        (tt, after (fresh failing_kernel) call_version
               (FlMethodSuccessResponse (FlString ("Linux " ++ suffix))))).
Proof.
  split; [reflexivity | split; [reflexivity |]].
  intros [suffix [Hne H]]. vm_compute in H.
  apply Hne. destruct suffix; [reflexivity | discriminate H].
Qed.

(** C3 (amended): for every call named ["getPlatformVersion"] the Success
    string is ["Linux "] followed by a suffix, and the suffix is the version
    string that [uname] reported: the C string in the [version] field when
    [uname] succeeded, and the empty string when [uname] failed, so that
    the answer is then exactly ["Linux "].  The suffix is non-empty exactly
    when [uname] succeeded and reported a non-empty [version]. *)
Theorem C3_linux_prefix_suffix
    (self : CustomTooltipFlutterPlugin) (call : FlMethodCall) (w : World) :
  c_str (name call) = "getPlatformVersion" ->
  exists suffix : string,
    custom_tooltip_flutter_plugin_handle_method_call self call w =
    (tt, after w call
           (FlMethodSuccessResponse (FlString ("Linux " ++ suffix)))) /\
    (forall u, kernel_uname (kernel w) = Some u ->
               suffix = c_str (version u)) /\
    (kernel_uname (kernel w) = None -> suffix = "") /\
    (suffix <> "" <->
     exists u, kernel_uname (kernel w) = Some u /\ c_str (version u) <> "").
Proof.
  intros Hname. exists (reported_version (kernel w)).
  split; [now apply handle_known |].
  unfold reported_version.
  destruct (kernel_uname (kernel w)) as [u|].
  - split; [intros u' Hu'; now inversion Hu' |].
    split; [intros Hnone; discriminate Hnone |].
    split.
    + intros H. exists u. split; [reflexivity | exact H].
    + intros [u' [Hu' H]]. inversion Hu'. subst u'. exact H.
  - split; [intros u' Hu'; discriminate Hu' |].
    split; [reflexivity |].
    split.
    + intros H. exfalso. apply H. reflexivity.
    + intros [u' [Hu' _]]. discriminate Hu'.
Qed.

Lemma C3_linux_prefix_suffix_witness :
  c_str (name call_version) = "getPlatformVersion" /\
  exists suffix : string,
    custom_tooltip_flutter_plugin_handle_method_call
      plugin call_version (fresh ubuntu_kernel) =
    (tt, after (fresh ubuntu_kernel) call_version
           (FlMethodSuccessResponse (FlString ("Linux " ++ suffix)))) /\
    (forall u, kernel_uname (kernel (fresh ubuntu_kernel)) = Some u ->
               suffix = c_str (version u)) /\
    (kernel_uname (kernel (fresh ubuntu_kernel)) = None -> suffix = "") /\
    (suffix <> "" <->
     exists u, kernel_uname (kernel (fresh ubuntu_kernel)) = Some u /\
               c_str (version u) <> "").
Proof.
  split; [reflexivity |].
  apply (C3_linux_prefix_suffix plugin call_version (fresh ubuntu_kernel)).
  reflexivity.
Defined.

(** C4: for every call delivered to it the handler hands exactly one
    response to the channel, for that call, and has done so when it
    returns: the world it returns is the one it was given with one more
    entry at the end of the channel's record. *)
Theorem C4_exactly_one_response
    (self : CustomTooltipFlutterPlugin) (call : FlMethodCall) (w : World) :
  exists r : FlMethodResponse,
    custom_tooltip_flutter_plugin_handle_method_call self call w =
    (tt, after w call r) /\
    responded (snd (custom_tooltip_flutter_plugin_handle_method_call
                      self call w)) = (responded w ++ [(call, r)])%list /\
    List.length
      (responded (snd (custom_tooltip_flutter_plugin_handle_method_call
                         self call w))) = S (List.length (responded w)).
Proof.
  rewrite handle_run. eexists. split; [reflexivity |].
  split; [reflexivity |]. simpl.
  rewrite length_app. simpl. apply Nat.add_1_r.
Qed.

(** C5: when [uname] fails, a call named ["getPlatformVersion"] is still
    answered, once: the answer is Success with the fallback string
    ["Linux "], which is one of the two outcomes the specification
    allows. *)
Theorem C5_query_failure_still_answered
    (self : CustomTooltipFlutterPlugin) (call : FlMethodCall) (w : World) :
  kernel_uname (kernel w) = None ->
  c_str (name call) = "getPlatformVersion" ->
  exists r : FlMethodResponse,
    custom_tooltip_flutter_plugin_handle_method_call self call w =
    (tt, after w call r) /\
    ((exists code message details,
         r = FlMethodErrorResponse code message details) \/
     (exists s, r = FlMethodSuccessResponse (FlString s))) /\
    r = FlMethodSuccessResponse (FlString "Linux ").
Proof.
  intros Hfail Hname. rewrite (handle_known self call w Hname).
  unfold reported_version. rewrite Hfail.
  eexists. split; [reflexivity |]. split; [| reflexivity].
  right. eexists. reflexivity.
Qed.

Lemma C5_query_failure_witness :
  kernel_uname (kernel (fresh failing_kernel)) = None /\
  c_str (name call_version) = "getPlatformVersion" /\
  exists r : FlMethodResponse,
    custom_tooltip_flutter_plugin_handle_method_call
      plugin call_version (fresh failing_kernel) =
    (tt, after (fresh failing_kernel) call_version r) /\
    ((exists code message details,
         r = FlMethodErrorResponse code message details) \/
     (exists s, r = FlMethodSuccessResponse (FlString s))) /\
    r = FlMethodSuccessResponse (FlString "Linux ").
Proof.
  split; [reflexivity | split; [reflexivity |]].
  apply (C5_query_failure_still_answered plugin call_version
           (fresh failing_kernel)); reflexivity.
Defined.

(** C6: for every call named ["getPlatformVersion"] the answer is Success
    with a string that is not empty and starts with ["Linux "]; on a host
    whose [uname] reports the family name ["Linux"], the string contains
    that family name. *)
Theorem C6_success_nonempty_linux
    (self : CustomTooltipFlutterPlugin) (call : FlMethodCall) (w : World) :
  c_str (name call) = "getPlatformVersion" ->
  exists s : string,
    custom_tooltip_flutter_plugin_handle_method_call self call w =
    (tt, after w call (FlMethodSuccessResponse (FlString s))) /\
    s <> "" /\
    String.prefix "Linux " s = true /\
    (forall u, kernel_uname (kernel w) = Some u ->
               c_str (sysname u) = "Linux" ->
               exists a b, s = a ++ c_str (sysname u) ++ b).
Proof.
  intros Hname. exists ("Linux " ++ reported_version (kernel w)).
  split; [now apply handle_known |].
  split; [simpl; discriminate |].
  split; [destruct (reported_version (kernel w)); reflexivity |].
  intros u _ Hsys. rewrite Hsys.
  exists "", (" " ++ reported_version (kernel w)). reflexivity.
Qed.

Lemma C6_success_nonempty_linux_witness :
  c_str (name call_version) = "getPlatformVersion" /\
  exists s : string,
    custom_tooltip_flutter_plugin_handle_method_call
      plugin call_version (fresh ubuntu_kernel) =
    (tt, after (fresh ubuntu_kernel) call_version
           (FlMethodSuccessResponse (FlString s))) /\
    s <> "" /\
    String.prefix "Linux " s = true /\
    (forall u, kernel_uname (kernel (fresh ubuntu_kernel)) = Some u ->
               c_str (sysname u) = "Linux" ->
               exists a b, s = a ++ c_str (sysname u) ++ b).
Proof.
  split; [reflexivity |].
  apply (C6_success_nonempty_linux plugin call_version
           (fresh ubuntu_kernel)).
  reflexivity.
Defined.

(** C7: the handler returns for every call and every kernel.  An unknown
    name ends in NotImplemented and a failed [uname] ends in the Success
    fallback; in both cases the handler returns normally, the kernel is as
    it was and the one response is all that was added to the world. *)
Theorem C7_errors_recovered
    (self : CustomTooltipFlutterPlugin) (call : FlMethodCall) (w : World) :
  exists (r : FlMethodResponse) (w' : World),
    custom_tooltip_flutter_plugin_handle_method_call self call w = (tt, w') /\
    kernel w' = kernel w /\
    responded w' = (responded w ++ [(call, r)])%list /\
    (c_str (name call) <> "getPlatformVersion" ->
     r = FlMethodNotImplementedResponse) /\
    (c_str (name call) = "getPlatformVersion" ->
     kernel_uname (kernel w) = None ->
     r = FlMethodSuccessResponse (FlString "Linux ")).
Proof.
  rewrite handle_run. eexists. eexists.
  split; [reflexivity |]. split; [reflexivity |]. split; [reflexivity |].
  destruct (string_dec (c_str (name call)) "getPlatformVersion") as [H|H].
  - split; [intros Hn; contradiction |].
    intros _ Hfail. unfold reported_version. rewrite Hfail. reflexivity.
  - split; [reflexivity |]. intros Hn. contradiction.
Qed.

(** C8: two runs of the handler on equal calls under the same kernel give
    equal responses, whatever the channel has recorded before; this holds
    in particular for a second run made in the world the first run left,
    and each run leaves the kernel as it found it. *)
Theorem C8_two_runs_agree
    (self : CustomTooltipFlutterPlugin) (c1 c2 : FlMethodCall)
    (w w' : World) :
  c1 = c2 ->
  kernel w' = kernel w ->
  exists r : FlMethodResponse,
    custom_tooltip_flutter_plugin_handle_method_call self c1 w =
    (tt, after w c1 r) /\
    custom_tooltip_flutter_plugin_handle_method_call self c2 w' =
    (tt, after w' c2 r) /\
    custom_tooltip_flutter_plugin_handle_method_call self c2
      (snd (custom_tooltip_flutter_plugin_handle_method_call self c1 w)) =
    (tt, after (after w c1 r) c2 r) /\
    kernel (after (after w c1 r) c2 r) = kernel w.
Proof.
  intros <- Hk. rewrite (handle_run self c1 w). unfold snd.
  rewrite !handle_run, Hk.
  eexists. split; [reflexivity |]. split; [reflexivity |].
  split; reflexivity.
Qed.

Lemma C8_two_runs_agree_witness :
  call_version = call_version /\
  kernel (after (fresh ubuntu_kernel) call_other
            FlMethodNotImplementedResponse) = kernel (fresh ubuntu_kernel) /\
  exists r : FlMethodResponse,
    custom_tooltip_flutter_plugin_handle_method_call
      plugin call_version (fresh ubuntu_kernel) =
    (tt, after (fresh ubuntu_kernel) call_version r) /\
    custom_tooltip_flutter_plugin_handle_method_call
      plugin call_version
      (after (fresh ubuntu_kernel) call_other
         FlMethodNotImplementedResponse) =
    (tt, after (after (fresh ubuntu_kernel) call_other
                  FlMethodNotImplementedResponse) call_version r) /\
    custom_tooltip_flutter_plugin_handle_method_call plugin call_version
      (snd (custom_tooltip_flutter_plugin_handle_method_call
              plugin call_version (fresh ubuntu_kernel))) =
    (tt, after (after (fresh ubuntu_kernel) call_version r)
           call_version r) /\
    kernel (after (after (fresh ubuntu_kernel) call_version r)
              call_version r) = kernel (fresh ubuntu_kernel).
Proof.
  split; [reflexivity | split; [reflexivity |]].
  apply (C8_two_runs_agree plugin call_version call_version
           (fresh ubuntu_kernel)
           (after (fresh ubuntu_kernel) call_other
              FlMethodNotImplementedResponse)); reflexivity.
Defined.

(** C9: the handler never answers with an Error response.  The answer is
    Success when the name is ["getPlatformVersion"] and NotImplemented for
    every other name, whether or not [uname] succeeds. *)
Theorem C9_never_error
    (self : CustomTooltipFlutterPlugin) (call : FlMethodCall) (w : World) :
  exists r : FlMethodResponse,
    custom_tooltip_flutter_plugin_handle_method_call self call w =
    (tt, after w call r) /\
    (forall code message details,
        r <> FlMethodErrorResponse code message details) /\
    (c_str (name call) = "getPlatformVersion" ->
     exists value, r = FlMethodSuccessResponse value) /\
    (c_str (name call) <> "getPlatformVersion" ->
     r = FlMethodNotImplementedResponse).
Proof.
  rewrite handle_run. eexists. split; [reflexivity |].
  destruct (string_dec (c_str (name call)) "getPlatformVersion") as [H|H].
  - split; [intros code message details; discriminate |].
    split; [intros _; eexists; reflexivity | intros Hn; contradiction].
  - split; [intros code message details; discriminate |].
    split; [intros Hn; contradiction | reflexivity].
Qed.

(** C10: the response depends on the name of the call and on the kernel
    only: two calls with the same name and any arguments get equal
    responses under the same kernel. *)
Theorem C10_arguments_ignored
    (self : CustomTooltipFlutterPlugin) (c1 c2 : FlMethodCall)
    (w1 w2 : World) :
  name c1 = name c2 ->
  kernel w1 = kernel w2 ->
  exists r : FlMethodResponse,
    custom_tooltip_flutter_plugin_handle_method_call self c1 w1 =
    (tt, after w1 c1 r) /\
    custom_tooltip_flutter_plugin_handle_method_call self c2 w2 =
    (tt, after w2 c2 r).
Proof.
  intros Hn Hk. rewrite !handle_run, Hn, Hk.
  eexists. split; reflexivity.
Qed.

Lemma C10_arguments_ignored_witness :
  name call_version =
  name {| name := "getPlatformVersion";
          args := FlList [FlString "x"; FlInt 7] |} /\
  kernel (fresh ubuntu_kernel) = kernel (fresh ubuntu_kernel) /\
  exists r : FlMethodResponse,
    custom_tooltip_flutter_plugin_handle_method_call
      plugin call_version (fresh ubuntu_kernel) =
    (tt, after (fresh ubuntu_kernel) call_version r) /\
    custom_tooltip_flutter_plugin_handle_method_call
      plugin {| name := "getPlatformVersion";
                args := FlList [FlString "x"; FlInt 7] |}
      (fresh ubuntu_kernel) =
    (tt, after (fresh ubuntu_kernel)
           {| name := "getPlatformVersion";
              args := FlList [FlString "x"; FlInt 7] |} r).
Proof.
  split; [reflexivity | split; [reflexivity |]].
  apply (C10_arguments_ignored plugin call_version
           {| name := "getPlatformVersion";
              args := FlList [FlString "x"; FlInt 7] |}
           (fresh ubuntu_kernel) (fresh ubuntu_kernel)); reflexivity.
Defined.

(* ================================================================== *)
(** ** More about [get_platform_version] and the handler *)

Section Handler.

Variable self : CustomTooltipFlutterPlugin.

Lemma c_str_length_le (s : string) :
  (String.length (c_str s) <= String.length s)%nat.
Proof.
  induction s as [|c r IH]; simpl; [lia |].
  destruct (Ascii.eqb c NUL); simpl; lia.
Qed.

(** A buffer that holds a NUL is read no further than that NUL. *)
Lemma c_str_stops_at_nul (a b : string) :
  (String.length (c_str (a ++ String NUL b)) <= String.length a)%nat.
Proof.
  induction a as [|c r IH]; simpl; [lia |].
  destruct (Ascii.eqb c NUL); simpl; lia.
Qed.

Lemma app_length_string (a b : string) :
  String.length (a ++ b) = (String.length a + String.length b)%nat.
Proof. induction a as [|c r IH]; simpl; [reflexivity | now rewrite IH]. Qed.

(** Worlds in which the same version is read get the same response. *)
Lemma same_version_same_response (c1 c2 : FlMethodCall) (w1 w2 : World) :
  c_str (name c1) = c_str (name c2) ->
  reported_version (kernel w1) = reported_version (kernel w2) ->
  exists r : FlMethodResponse,
    custom_tooltip_flutter_plugin_handle_method_call self c1 w1 =
    (tt, after w1 c1 r) /\
    custom_tooltip_flutter_plugin_handle_method_call self c2 w2 =
    (tt, after w2 c2 r).
Proof.
  intros Hn Hv. rewrite !handle_run, Hn, Hv.
  eexists. split; reflexivity.
Qed.

(** The response can be read back from the world the handler returns. *)
Lemma after_inj (w : World) (c : FlMethodCall) (r1 r2 : FlMethodResponse) :
  after w c r1 = after w c r2 -> r1 = r2.
Proof.
  unfold after. intros H. injection H as H.
  apply app_inv_head in H. now injection H.
Qed.

End Handler.

(** X1: [get_platform_version] only builds a response.  For every world,
    also one whose [uname] fails, it returns a Success response whose
    string starts with ["Linux "], and it returns the world as it found it:
    it sends nothing on the channel itself. *)
Theorem get_platform_version_only_builds (w : World) :
  exists s : string,
    get_platform_version w = (FlMethodSuccessResponse (FlString s), w) /\
    String.prefix "Linux " s = true.
Proof.
  rewrite get_platform_version_run. eexists. split; [reflexivity |].
  destruct (reported_version (kernel w)); reflexivity.
Qed.

(** X2: when [uname] succeeds and the [version] field it wrote holds a
    terminating NUL, the string [get_platform_version] returns is what
    [g_strdup_printf] printed, whole: it holds no NUL byte, so that
    [fl_value_new_string] dropped nothing.  It is six bytes longer than the
    version read from the field, and less than six bytes longer than the
    field itself. *)
Theorem get_platform_version_string_shape (w : World) (u : utsname) :
  kernel_uname (kernel w) = Some u ->
  (exists before rest, version u = before ++ String NUL rest) ->
  exists s : string,
    get_platform_version w = (FlMethodSuccessResponse (FlString s), w) /\
    s = g_strdup_printf "Linux %s" [version u] /\
    c_str s = s /\
    String.length s = (6 + String.length (c_str (version u)))%nat /\
    (String.length s < 6 + String.length (version u))%nat.
Proof.
  intros Hu [before [rest Hnul]]. rewrite get_platform_version_run.
  unfold reported_version. rewrite Hu.
  eexists. split; [reflexivity |].
  split; [now rewrite printf_Linux |].
  split; [now rewrite (c_str_app "Linux " _ eq_refl), c_str_idem |].
  rewrite app_length_string.
  split; [reflexivity |].
  pose proof (c_str_stops_at_nul before rest) as Hle.
  rewrite <- Hnul in Hle.
  pose proof (f_equal String.length Hnul) as Hlen.
  rewrite app_length_string in Hlen. simpl in Hlen |- *. lia.
Qed.

Lemma get_platform_version_string_shape_witness :
  kernel_uname (kernel (fresh ubuntu_kernel)) = Some ubuntu /\
  (exists before rest, version ubuntu = before ++ String NUL rest) /\
  exists s : string,
    get_platform_version (fresh ubuntu_kernel) =
    (FlMethodSuccessResponse (FlString s), fresh ubuntu_kernel) /\
    s = g_strdup_printf "Linux %s" [version ubuntu] /\
    c_str s = s /\
    String.length s = (6 + String.length (c_str (version ubuntu)))%nat /\
    (String.length s < 6 + String.length (version ubuntu))%nat.
Proof.
  assert (Hnul : exists before rest,
             version ubuntu = before ++ String NUL rest).
  { exists "#101-Ubuntu SMP Tue Nov 14 13:30:08 UTC 2023", (zeros 20).
    reflexivity. }
  split; [reflexivity | split; [exact Hnul |]].
  apply (get_platform_version_string_shape (fresh ubuntu_kernel) ubuntu).
  - reflexivity.
  - exact Hnul.
Defined.

(** X3: of what [uname] reports only the [version] field reaches the
    response.  Two hosts that report the same version get the same response
    to the same call, whatever their node name, release, machine or domain
    name are. *)
Theorem other_utsname_fields_ignored
    (self : CustomTooltipFlutterPlugin) (call : FlMethodCall)
    (w1 w2 : World) (u1 u2 : utsname) :
  kernel_uname (kernel w1) = Some u1 ->
  kernel_uname (kernel w2) = Some u2 ->
  c_str (version u1) = c_str (version u2) ->
  exists r : FlMethodResponse,
    custom_tooltip_flutter_plugin_handle_method_call self call w1 =
    (tt, after w1 call r) /\
    custom_tooltip_flutter_plugin_handle_method_call self call w2 =
    (tt, after w2 call r).
Proof.
  intros H1 H2 Hv. apply same_version_same_response; [reflexivity |].
  unfold reported_version. now rewrite H1, H2.
Qed.

Lemma other_utsname_fields_ignored_witness :
  let other :=
    {| sysname := "GNU"; nodename := "laptop"; release := "6.1.0";
       version := version ubuntu; machine := "aarch64";
       domainname := "example.org" |} in
  let w2 := {| kernel := {| kernel_uname := Some other |};
               responded := [] |} in
  kernel_uname (kernel (fresh ubuntu_kernel)) = Some ubuntu /\
  kernel_uname (kernel w2) = Some other /\
  c_str (version ubuntu) = c_str (version other) /\
  exists r : FlMethodResponse,
    custom_tooltip_flutter_plugin_handle_method_call
      plugin call_version (fresh ubuntu_kernel) =
    (tt, after (fresh ubuntu_kernel) call_version r) /\
    custom_tooltip_flutter_plugin_handle_method_call
      plugin call_version w2 =
    (tt, after w2 call_version r).
Proof.
  intros other w2.
  split; [reflexivity | split; [reflexivity | split; [reflexivity |]]].
  apply (other_utsname_fields_ignored plugin call_version
           (fresh ubuntu_kernel) w2 ubuntu other); reflexivity.
Defined.

(** X4: the response to ["getPlatformVersion"] determines the version that
    was read.  If two hosts whose [uname] succeeds get equal responses,
    the C strings in their [version] fields are equal. *)
Theorem response_determines_version
    (self : CustomTooltipFlutterPlugin) (call : FlMethodCall)
    (w1 w2 : World) (u1 u2 : utsname) (r : FlMethodResponse) :
  c_str (name call) = "getPlatformVersion" ->
  kernel_uname (kernel w1) = Some u1 ->
  kernel_uname (kernel w2) = Some u2 ->
  custom_tooltip_flutter_plugin_handle_method_call self call w1 =
  (tt, after w1 call r) ->
  custom_tooltip_flutter_plugin_handle_method_call self call w2 =
  (tt, after w2 call r) ->
  c_str (version u1) = c_str (version u2).
Proof.
  intros Hname H1 H2 R1 R2.
  rewrite (handle_known self call w1 Hname) in R1.
  rewrite (handle_known self call w2 Hname) in R2.
  apply (f_equal snd) in R1. apply (f_equal snd) in R2.
  cbn [snd] in R1, R2.
  apply after_inj in R1. apply after_inj in R2.
  rewrite <- R2 in R1. unfold reported_version in R1.
  rewrite H1, H2 in R1. simpl in R1. now injection R1.
Qed.

Lemma response_determines_version_witness :
  let w2 := after (fresh ubuntu_kernel) call_other
              FlMethodNotImplementedResponse in
  let r := FlMethodSuccessResponse
             (FlString
                "Linux #101-Ubuntu SMP Tue Nov 14 13:30:08 UTC 2023") in
  c_str (name call_version) = "getPlatformVersion" /\
  kernel_uname (kernel (fresh ubuntu_kernel)) = Some ubuntu /\
  kernel_uname (kernel w2) = Some ubuntu /\
  custom_tooltip_flutter_plugin_handle_method_call
    plugin call_version (fresh ubuntu_kernel) =
  (tt, after (fresh ubuntu_kernel) call_version r) /\
  custom_tooltip_flutter_plugin_handle_method_call plugin call_version w2 =
  (tt, after w2 call_version r) /\
  c_str (version ubuntu) = c_str (version ubuntu).
Proof.
  intros w2 r.
  split; [reflexivity | split; [reflexivity | split; [reflexivity |]]].
  split; [reflexivity | split; [reflexivity |]].
  apply (response_determines_version plugin call_version
           (fresh ubuntu_kernel) w2 ubuntu ubuntu r); reflexivity.
Defined.

(** X5: a failed [uname] cannot be told from one that reports an empty
    version: both are answered alike, for every call. *)
Theorem failed_query_like_empty_version
    (self : CustomTooltipFlutterPlugin) (call : FlMethodCall)
    (w1 w2 : World) (u : utsname) :
  kernel_uname (kernel w1) = None ->
  kernel_uname (kernel w2) = Some u ->
  c_str (version u) = "" ->
  exists r : FlMethodResponse,
    custom_tooltip_flutter_plugin_handle_method_call self call w1 =
    (tt, after w1 call r) /\
    custom_tooltip_flutter_plugin_handle_method_call self call w2 =
    (tt, after w2 call r).
Proof.
  intros H1 H2 Hv. apply same_version_same_response; [reflexivity |].
  unfold reported_version. now rewrite H1, H2, Hv.
Qed.

Lemma failed_query_like_empty_version_witness :
  let w2 := {| kernel := {| kernel_uname := Some utsname_zero |};
               responded := [] |} in
  kernel_uname (kernel (fresh failing_kernel)) = None /\
  kernel_uname (kernel w2) = Some utsname_zero /\
  c_str (version utsname_zero) = "" /\
  exists r : FlMethodResponse,
    custom_tooltip_flutter_plugin_handle_method_call
      plugin call_version (fresh failing_kernel) =
    (tt, after (fresh failing_kernel) call_version r) /\
    custom_tooltip_flutter_plugin_handle_method_call
      plugin call_version w2 =
    (tt, after w2 call_version r).
Proof.
  intros w2.
  split; [reflexivity | split; [reflexivity | split; [reflexivity |]]].
  apply (failed_query_like_empty_version plugin call_version
           (fresh failing_kernel) w2 utsname_zero); reflexivity.
Defined.

(** X6: the name is read up to its terminator only.  Two calls whose name
    buffers hold the same C string get equal responses under the same
    kernel, whatever bytes follow the terminator and whatever the
    arguments. *)
Theorem name_read_to_terminator
    (self : CustomTooltipFlutterPlugin) (c1 c2 : FlMethodCall)
    (w1 w2 : World) :
  c_str (name c1) = c_str (name c2) ->
  kernel w1 = kernel w2 ->
  exists r : FlMethodResponse,
    custom_tooltip_flutter_plugin_handle_method_call self c1 w1 =
    (tt, after w1 c1 r) /\
    custom_tooltip_flutter_plugin_handle_method_call self c2 w2 =
    (tt, after w2 c2 r).
Proof.
  intros Hn Hk. apply same_version_same_response; [exact Hn |].
  now rewrite Hk.
Qed.

Lemma name_read_to_terminator_witness :
  let c2 := {| name := "getPlatformVersion" ++ String NUL "Later";
               args := FlInt 5 |} in
  c_str (name call_version) = c_str (name c2) /\
  kernel (fresh ubuntu_kernel) = kernel (fresh ubuntu_kernel) /\
  exists r : FlMethodResponse,
    custom_tooltip_flutter_plugin_handle_method_call
      plugin call_version (fresh ubuntu_kernel) =
    (tt, after (fresh ubuntu_kernel) call_version r) /\
    custom_tooltip_flutter_plugin_handle_method_call
      plugin c2 (fresh ubuntu_kernel) =
    (tt, after (fresh ubuntu_kernel) c2 r).
Proof.
  intros c2. split; [reflexivity | split; [reflexivity |]].
  apply (name_read_to_terminator plugin call_version c2
           (fresh ubuntu_kernel) (fresh ubuntu_kernel)); reflexivity.
Defined.

(** X7: the name must match whole.  A name that goes on after
    ["getPlatformVersion"] with at least one byte that is not NUL, and a
    name that is a proper prefix of ["getPlatformVersion"], are both
    answered NotImplemented. *)
Theorem longer_and_shorter_names_not_implemented
    (self : CustomTooltipFlutterPlugin) (call : FlMethodCall) (w : World) :
  (exists more, c_str more <> "" /\
                name call = "getPlatformVersion" ++ more) \/
  (exists rest, rest <> "" /\
                name call ++ rest = "getPlatformVersion") ->
  custom_tooltip_flutter_plugin_handle_method_call self call w =
  (tt, after w call FlMethodNotImplementedResponse).
Proof.
  intros H. apply handle_unknown. intros Heq.
  destruct H as [[more [Hmore Hn]] | [rest [Hrest Hn]]].
  - rewrite Hn, (c_str_app "getPlatformVersion" more eq_refl) in Heq.
    simpl in Heq. apply Hmore. now injection Heq.
  - pose proof (c_str_length_le (name call)) as Hle.
    rewrite Heq in Hle.
    pose proof (f_equal String.length Hn) as Hlen.
    rewrite app_length_string in Hlen. simpl in Hle, Hlen.
    destruct rest as [|c rest]; [now apply Hrest |]. simpl in Hlen. lia.
Qed.

Lemma longer_and_shorter_names_witness :
  ((exists more, c_str more <> "" /\
                 "getPlatformVersion2" = "getPlatformVersion" ++ more) \/
   (exists rest, rest <> "" /\
                 "getPlatformVersion2" ++ rest = "getPlatformVersion")) /\
  custom_tooltip_flutter_plugin_handle_method_call plugin
    {| name := "getPlatformVersion2"; args := FlNull |}
    (fresh ubuntu_kernel) =
  (tt, after (fresh ubuntu_kernel)
         {| name := "getPlatformVersion2"; args := FlNull |}
         FlMethodNotImplementedResponse).
Proof.
  assert (H : (exists more, c_str more <> "" /\
                 "getPlatformVersion2" = "getPlatformVersion" ++ more) \/
              (exists rest, rest <> "" /\
                 "getPlatformVersion2" ++ rest = "getPlatformVersion")).
  { left. exists "2". split; [simpl; intros H; discriminate H |].
    reflexivity. }
  split; [exact H |].
  apply (longer_and_shorter_names_not_implemented plugin
           {| name := "getPlatformVersion2"; args := FlNull |}
           (fresh ubuntu_kernel)).
  exact H.
Defined.

(* ================================================================== *)
(** ** Calls in sequence *)

Import Registration.

Lemma world_eta (w : World) :
  {| kernel := kernel w; responded := (responded w ++ [])%list |} = w.
Proof. rewrite app_nil_r. now destruct w. Qed.

(** X8: a sequence of calls handed to [method_call_cb] one after the other
    is answered call by call and in order: the channel's record grows by
    one entry per call, the kernel is as before, and the response to each
    call is the one the handler gives to that call alone, in any world with
    the same kernel.  No call changes the answer to a later one. *)
Theorem receive_all_in_order
    (plugin : CustomTooltipFlutterPlugin) (calls : list FlMethodCall)
    (w : World) :
  exists rs : list FlMethodResponse,
    receive_all plugin calls w =
    (tt, {| kernel := kernel w;
            responded := (responded w ++ combine calls rs)%list |}) /\
    List.length rs = List.length calls /\
    forall (i : nat) (c : FlMethodCall) (r : FlMethodResponse) (w0 : World),
      nth_error calls i = Some c ->
      nth_error rs i = Some r ->
      kernel w0 = kernel w ->
      custom_tooltip_flutter_plugin_handle_method_call plugin c w0 =
      (tt, after w0 c r).
Proof.
  revert w. induction calls as [|c cs IH]; intros w.
  - exists []. simpl. unfold ret. rewrite world_eta.
    split; [reflexivity | split; [reflexivity |]].
    intros [|i] c r w0 Hc; discriminate Hc.
  - simpl. unfold bind, method_call_cb. rewrite handle_run.
    set (r0 := if string_dec (c_str (name c)) "getPlatformVersion"
               then FlMethodSuccessResponse
                      (FlString ("Linux " ++ reported_version (kernel w)))
               else FlMethodNotImplementedResponse).
    destruct (IH (after w c r0)) as [rs [Hrun [Hlen Hnth]]].
    exists (r0 :: rs). rewrite Hrun. simpl.
    split; [now rewrite <- app_assoc |].
    split; [now rewrite Hlen |].
    intros [|i] c' r' w0 Hc Hr Hk; simpl in Hc, Hr.
    + injection Hc as <-. injection Hr as <-.
      rewrite handle_run, Hk. reflexivity.
    + apply (Hnth i c' r' w0 Hc Hr). exact Hk.
Qed.

(* ================================================================== *)
(** ** Registration and the life of the plugin object *)

Section RegistrationFacts.

Lemma store_same (h : Heap) (a : gpointer) o : instances (store h a o) a = o.
Proof. unfold store. cbn. now rewrite Nat.eqb_refl. Qed.

Lemma store_other (h : Heap) (a b : gpointer) o :
  b <> a -> instances (store h a o) b = instances h b.
Proof. intros H. unfold store. cbn. apply Nat.eqb_neq in H. now rewrite H. Qed.

Lemma set_channel_same rt m n c : set_channel rt m n c m n = c.
Proof. unfold set_channel. now rewrite Nat.eqb_refl, String.eqb_refl. Qed.

Lemma unref_last (h : Heap) (a : gpointer) :
  instances h a = Some {| parent_instance := {| ref_count := 1 |} |} ->
  g_object_unref a h = store h a None.
Proof. intros H. unfold g_object_unref. rewrite H. reflexivity. Qed.

Lemma ref_then_unref (h : Heap) (a : gpointer) (o : CustomTooltipFlutterPlugin) :
  instances h a = Some o ->
  forall b,
    instances (g_object_unref a (snd (g_object_ref a h))) b =
    if Nat.eqb b a
    then Some {| parent_instance :=
                   {| ref_count := ref_count (parent_instance o) |} |}
    else instances h b.
Proof.
  intros H b. unfold g_object_ref. rewrite H. cbn [snd].
  unfold g_object_unref. rewrite store_same. cbn [parent_instance ref_count].
  destruct (Pos.eqb_spec (Pos.succ (ref_count (parent_instance o))) 1) as [E|_].
  - exfalso. lia.
  - rewrite Pos.pred_succ. unfold store. cbn.
    destruct (Nat.eqb b a); reflexivity.
Qed.

Lemma register_unfold (registrar : FlPluginRegistrar) (rt : Runtime) :
  let p := next_instance (heap rt) in
  let m := registrar_messenger registrar in
  let rtc :=
    channel_closed_cb m "custom_tooltip_flutter"
      {| heap := snd (g_object_new custom_tooltip_flutter_plugin_get_type
                        (heap rt));
         channels := channels rt |} in
  instances (heap rtc) p =
    Some {| parent_instance := {| ref_count := 1 |} |} ->
  (forall a,
      instances
        (heap (custom_tooltip_flutter_plugin_register_with_registrar
                 registrar rt)) a =
      if Nat.eqb a p
      then Some {| parent_instance := {| ref_count := 1 |} |}
      else instances (heap rtc) a) /\
  next_instance
    (heap (custom_tooltip_flutter_plugin_register_with_registrar
             registrar rt)) = next_instance (heap rtc) /\
  (forall m' n',
      channels (custom_tooltip_flutter_plugin_register_with_registrar
                  registrar rt) m' n' =
      if (Nat.eqb m' m && String.eqb n' "custom_tooltip_flutter")%bool
      then Some (plugin_channel p)
      else channels rtc m' n').
Proof.
  intros p m rtc Hp.
  assert (ER :
    custom_tooltip_flutter_plugin_register_with_registrar registrar rt =
    let (user_data0, h) := g_object_ref p (heap rtc) in
    let rt4 :=
      fl_method_channel_set_method_call_handler
        {| channel_messenger := m;
           channel_name := "custom_tooltip_flutter" |}
        method_call_cb user_data0 (Some g_object_unref)
        {| heap := h;
           channels :=
             set_channel rtc m "custom_tooltip_flutter"
               (Some {| channel_codec := FlStandardMethodCodec;
                        channel_handler := None |}) |} in
    {| heap := g_object_unref p (heap rt4); channels := channels rt4 |})
    by reflexivity.
  rewrite ER. clear ER.
  pose proof (ref_then_unref (heap rtc) p _ Hp) as Hru.
  unfold g_object_ref in *. rewrite Hp in *. cbn [snd] in Hru.
  unfold fl_method_channel_set_method_call_handler.
  cbn [channel_messenger channel_name channels heap].
  rewrite set_channel_same.
  cbn [channel_handler channel_codec drop_handler heap channels].
  split; [exact Hru |]. split.
  - unfold g_object_unref. rewrite store_same.
    cbn [parent_instance ref_count]. reflexivity.
  - intros m' n'. unfold set_channel at 1.
    cbn [channels].
    destruct (Nat.eqb m' m && String.eqb n' "custom_tooltip_flutter")%bool
      eqn:E; [reflexivity |].
    unfold set_channel. rewrite E. reflexivity.
Qed.

(** Registration when no channel is open under the name. *)
Lemma register_free (registrar : FlPluginRegistrar) (rt : Runtime) :
  let p := next_instance (heap rt) in
  let m := registrar_messenger registrar in
  let rt' :=
    custom_tooltip_flutter_plugin_register_with_registrar registrar rt in
  channels rt m "custom_tooltip_flutter" = None ->
  (forall a,
      instances (heap rt') a =
      if Nat.eqb a p
      then Some {| parent_instance := {| ref_count := 1 |} |}
      else instances (heap rt) a) /\
  next_instance (heap rt') = S p /\
  (forall m' n',
      channels rt' m' n' =
      if (Nat.eqb m' m && String.eqb n' "custom_tooltip_flutter")%bool
      then Some (plugin_channel p)
      else channels rt m' n').
Proof.
  intros p m rt' Hfree.
  pose proof (register_unfold registrar rt) as H. cbv zeta in H.
  unfold channel_closed_cb in H. cbn [channels] in H.
  fold m in H. rewrite Hfree in H. cbn [heap channels snd g_object_new] in H.
  fold p in H. cbn [instances next_instance] in H.
  rewrite Nat.eqb_refl in H.
  destruct (H eq_refl) as [Hi [Hn Hc]]. clear H.
  split; [| split; [exact Hn | exact Hc]].
  intros a. rewrite Hi. destruct (Nat.eqb a p); reflexivity.
Qed.

(** Registration when the plugin is already installed, on [q]. *)
Lemma register_again (registrar : FlPluginRegistrar) (rt : Runtime)
    (q : gpointer) :
  let p := next_instance (heap rt) in
  let m := registrar_messenger registrar in
  let rt' :=
    custom_tooltip_flutter_plugin_register_with_registrar registrar rt in
  plugin_installed rt m q ->
  q <> p ->
  (forall a,
      instances (heap rt') a =
      if Nat.eqb a p
      then Some {| parent_instance := {| ref_count := 1 |} |}
      else if Nat.eqb a q then None else instances (heap rt) a) /\
  next_instance (heap rt') = S p /\
  (forall m' n',
      channels rt' m' n' =
      if (Nat.eqb m' m && String.eqb n' "custom_tooltip_flutter")%bool
      then Some (plugin_channel p)
      else channels rt m' n').
Proof.
  intros p m rt' [Hc Hq] Hne.
  assert (Hqp : Nat.eqb q p = false) by now apply Nat.eqb_neq.
  assert (Hpq : Nat.eqb p q = false) by (apply Nat.eqb_neq; congruence).
  pose proof (register_unfold registrar rt) as H. cbv zeta in H.
  unfold channel_closed_cb in H. cbn [channels] in H.
  fold m in H. rewrite Hc in H.
  cbn [heap channels snd g_object_new plugin_channel channel_handler
       drop_handler destroy_notify user_data] in H.
  fold p in H.
  rewrite unref_last in H
    by (cbn [instances]; rewrite Hqp; exact Hq).
  unfold store in H. cbn [instances next_instance] in H.
  rewrite Hpq, Nat.eqb_refl in H.
  destruct (H eq_refl) as [Hi [Hn Hch]]. clear H.
  split; [| split; [exact Hn |]].
  - intros a. rewrite Hi.
    destruct (Nat.eqb a p) eqn:Ea; [reflexivity |].
    destruct (Nat.eqb a q); reflexivity.
  - intros m' n'. rewrite Hch.
    destruct (Nat.eqb m' m && String.eqb n' "custom_tooltip_flutter")%bool
      eqn:E; [reflexivity |].
    unfold set_channel. rewrite E. reflexivity.
Qed.

End RegistrationFacts.

(** X9: registration hands the plugin object over to the channel.  When no
    channel is open under ["custom_tooltip_flutter"] on the registrar's
    messenger, then after registration the channel is open there with the
    standard codec and [method_call_cb] as its handler, the handler's
    [user_data] is the object just created, and that object is alive with
    exactly one reference: the one taken for the handler, the creator's own
    having been given up. *)
Theorem registration_installs_plugin
    (registrar : FlPluginRegistrar) (rt : Runtime) :
  channels rt (registrar_messenger registrar) "custom_tooltip_flutter"
    = None ->
  plugin_installed
    (custom_tooltip_flutter_plugin_register_with_registrar registrar rt)
    (registrar_messenger registrar) (next_instance (heap rt)) /\
  next_instance
    (heap (custom_tooltip_flutter_plugin_register_with_registrar
             registrar rt)) = S (next_instance (heap rt)).
Proof.
  intros Hfree.
  destruct (register_free registrar rt Hfree) as [Hi [Hn Hc]].
  split; [split |].
  - rewrite Hc, Nat.eqb_refl, String.eqb_refl. reflexivity.
  - rewrite Hi, Nat.eqb_refl. reflexivity.
  - exact Hn.
Qed.

Lemma registration_installs_plugin_witness :
  channels empty_runtime 3%nat "custom_tooltip_flutter" = None /\
  plugin_installed
    (custom_tooltip_flutter_plugin_register_with_registrar
       {| registrar_messenger := 3%nat |} empty_runtime)
    3%nat 0%nat /\
  next_instance
    (heap (custom_tooltip_flutter_plugin_register_with_registrar
             {| registrar_messenger := 3%nat |} empty_runtime)) = 1%nat.
Proof.
  split; [reflexivity |].
  apply (registration_installs_plugin
           {| registrar_messenger := 3%nat |} empty_runtime).
  reflexivity.
Defined.

(** X10: registration touches nothing else.  Under the same condition,
    every object that was alive is as it was, and so is every channel of
    every messenger but the one registered. *)
Theorem registration_touches_nothing_else
    (registrar : FlPluginRegistrar) (rt : Runtime) :
  channels rt (registrar_messenger registrar) "custom_tooltip_flutter"
    = None ->
  (forall a : gpointer,
      a <> next_instance (heap rt) ->
      instances
        (heap (custom_tooltip_flutter_plugin_register_with_registrar
                 registrar rt)) a = instances (heap rt) a) /\
  (forall (m : FlBinaryMessenger) (n : string),
      m <> registrar_messenger registrar \/ n <> "custom_tooltip_flutter" ->
      channels (custom_tooltip_flutter_plugin_register_with_registrar
                  registrar rt) m n = channels rt m n).
Proof.
  intros Hfree.
  destruct (register_free registrar rt Hfree) as [Hi [_ Hc]].
  split.
  - intros a Ha. rewrite Hi. apply Nat.eqb_neq in Ha. now rewrite Ha.
  - intros m n Hmn. rewrite Hc.
    destruct (Nat.eqb_spec m (registrar_messenger registrar)) as [Em|Em];
      destruct (String.eqb_spec n "custom_tooltip_flutter") as [En|En];
      try reflexivity.
    destruct Hmn; contradiction.
Qed.

Lemma registration_touches_nothing_else_witness :
  let rt :=
    custom_tooltip_flutter_plugin_register_with_registrar
      {| registrar_messenger := 5%nat |} empty_runtime in
  channels rt 3%nat "custom_tooltip_flutter" = None /\
  (forall a : gpointer,
      a <> next_instance (heap rt) ->
      instances
        (heap (custom_tooltip_flutter_plugin_register_with_registrar
                 {| registrar_messenger := 3%nat |} rt)) a =
      instances (heap rt) a) /\
  (forall (m : FlBinaryMessenger) (n : string),
      m <> 3%nat \/ n <> "custom_tooltip_flutter" ->
      channels (custom_tooltip_flutter_plugin_register_with_registrar
                  {| registrar_messenger := 3%nat |} rt) m n =
      channels rt m n).
Proof.
  intros rt. split; [reflexivity |].
  apply (registration_touches_nothing_else
           {| registrar_messenger := 3%nat |} rt).
  reflexivity.
Defined.

(** X11: registering again on the same messenger replaces the plugin
    object.  If the plugin is installed with the object at [q], a further
    registration installs a new object, releases the last reference to the
    one at [q], which is freed, and leaves every other object as it was. *)
Theorem registering_again_frees_old_plugin
    (registrar : FlPluginRegistrar) (rt : Runtime) (q : gpointer) :
  plugin_installed rt (registrar_messenger registrar) q ->
  q <> next_instance (heap rt) ->
  plugin_installed
    (custom_tooltip_flutter_plugin_register_with_registrar registrar rt)
    (registrar_messenger registrar) (next_instance (heap rt)) /\
  instances
    (heap (custom_tooltip_flutter_plugin_register_with_registrar
             registrar rt)) q = None /\
  (forall a : gpointer,
      a <> next_instance (heap rt) -> a <> q ->
      instances
        (heap (custom_tooltip_flutter_plugin_register_with_registrar
                 registrar rt)) a = instances (heap rt) a).
Proof.
  intros Hin Hq.
  destruct (register_again registrar rt q Hin Hq) as [Hi [_ Hc]].
  assert (Hqp : Nat.eqb q (next_instance (heap rt)) = false)
    by now apply Nat.eqb_neq.
  split; [split | split].
  - rewrite Hc, Nat.eqb_refl, String.eqb_refl. reflexivity.
  - rewrite Hi, Nat.eqb_refl. reflexivity.
  - rewrite Hi, Hqp, Nat.eqb_refl. reflexivity.
  - intros a Ha Haq. rewrite Hi.
    apply Nat.eqb_neq in Ha. apply Nat.eqb_neq in Haq.
    now rewrite Ha, Haq.
Qed.

Lemma registering_again_frees_old_plugin_witness :
  let registrar := {| registrar_messenger := 3%nat |} in
  let rt :=
    custom_tooltip_flutter_plugin_register_with_registrar
      registrar empty_runtime in
  plugin_installed rt 3%nat 0%nat /\
  0%nat <> next_instance (heap rt) /\
  plugin_installed
    (custom_tooltip_flutter_plugin_register_with_registrar registrar rt)
    3%nat (next_instance (heap rt)) /\
  instances
    (heap (custom_tooltip_flutter_plugin_register_with_registrar
             registrar rt)) 0%nat = None /\
  (forall a : gpointer,
      a <> next_instance (heap rt) -> a <> 0%nat ->
      instances
        (heap (custom_tooltip_flutter_plugin_register_with_registrar
                 registrar rt)) a = instances (heap rt) a).
Proof.
  intros registrar rt.
  assert (Hin : plugin_installed rt 3%nat 0%nat) by (split; reflexivity).
  assert (Hq : 0%nat <> next_instance (heap rt))
    by (simpl; intros H; discriminate H).
  split; [exact Hin | split; [exact Hq |]].
  apply (registering_again_frees_old_plugin registrar rt 0%nat Hin Hq).
Defined.

(** X12: however often the plugin is registered on a messenger, one plugin
    object is alive afterwards and no more: the object of the last
    registration, with one reference, installed on the channel.  Every
    object of an earlier registration has been freed. *)
Theorem one_plugin_alive_after_registrations
    (registrar : FlPluginRegistrar) (n : nat) :
  let rt :=
    Nat.iter (S n)
      (custom_tooltip_flutter_plugin_register_with_registrar registrar)
      empty_runtime in
  plugin_installed rt (registrar_messenger registrar) n /\
  next_instance (heap rt) = S n /\
  (forall a : gpointer, a <> n -> instances (heap rt) a = None).
Proof.
  induction n as [|n IH].
  - cbv zeta. cbn [Nat.iter].
    assert (Hfree : channels empty_runtime (registrar_messenger registrar)
                      "custom_tooltip_flutter" = None) by reflexivity.
    destruct (register_free registrar empty_runtime Hfree) as [Hi [Hn Hc]].
    cbn [empty_runtime heap next_instance instances] in Hi, Hn, Hc.
    split; [split | split].
    + rewrite Hc, Nat.eqb_refl, String.eqb_refl. reflexivity.
    + rewrite Hi. reflexivity.
    + exact Hn.
    + intros a Ha. rewrite Hi. apply Nat.eqb_neq in Ha. now rewrite Ha.
  - cbv zeta in IH |- *.
    change (Nat.iter (S (S n)) ?f ?x) with (f (Nat.iter (S n) f x)).
    set (rt := Nat.iter (S n)
                 (custom_tooltip_flutter_plugin_register_with_registrar
                    registrar) empty_runtime) in *.
    destruct IH as [Hin [Hnext Hnone]].
    assert (Hq : n <> next_instance (heap rt)) by (rewrite Hnext; lia).
    destruct (register_again registrar rt n Hin Hq) as [Hi [Hn Hc]].
    rewrite Hnext in Hi, Hn, Hc.
    split; [split | split].
    + rewrite Hc, Nat.eqb_refl, String.eqb_refl. reflexivity.
    + rewrite Hi, Nat.eqb_refl. reflexivity.
    + exact Hn.
    + intros a Ha. rewrite Hi. apply Nat.eqb_neq in Ha. rewrite Ha.
      destruct (Nat.eqb_spec a n) as [_|Han]; [reflexivity |].
      now apply Hnone.
Qed.

(** X13: the reference given to the channel comes back when the channel is
    closed.  Registering on a free channel name and then closing the
    channel leaves every address of the heap and every channel as they were
    before the registration: the plugin object has been freed by the
    [g_object_unref] that was passed as the notifier. *)
Theorem closing_channel_frees_plugin
    (registrar : FlPluginRegistrar) (rt : Runtime) :
  channels rt (registrar_messenger registrar) "custom_tooltip_flutter"
    = None ->
  instances (heap rt) (next_instance (heap rt)) = None ->
  let rt' :=
    channel_closed_cb (registrar_messenger registrar)
      "custom_tooltip_flutter"
      (custom_tooltip_flutter_plugin_register_with_registrar
         registrar rt) in
  (forall a : gpointer, instances (heap rt') a = instances (heap rt) a) /\
  (forall (m : FlBinaryMessenger) (n : string),
      channels rt' m n = channels rt m n).
Proof.
  intros Hfree Hunused rt'.
  destruct (register_free registrar rt Hfree) as [Hi [_ Hc]].
  subst rt'. unfold channel_closed_cb.
  rewrite Hc, Nat.eqb_refl, String.eqb_refl.
  cbn [andb plugin_channel channel_handler drop_handler destroy_notify
       user_data heap channels].
  rewrite unref_last by (rewrite Hi, Nat.eqb_refl; reflexivity).
  split.
  - intros a. unfold store. cbn [instances]. rewrite Hi.
    destruct (Nat.eqb_spec a (next_instance (heap rt))) as [->|_];
      [now rewrite Hunused | reflexivity].
  - intros m n. unfold set_channel. rewrite Hc.
    destruct (Nat.eqb_spec m (registrar_messenger registrar)) as [->|_];
      destruct (String.eqb_spec n "custom_tooltip_flutter") as [->|_];
      cbn [andb]; try reflexivity.
    now rewrite Hfree.
Qed.

Lemma closing_channel_frees_plugin_witness :
  let registrar := {| registrar_messenger := 3%nat |} in
  channels empty_runtime 3%nat "custom_tooltip_flutter" = None /\
  instances (heap empty_runtime) (next_instance (heap empty_runtime))
    = None /\
  (forall a : gpointer,
      instances
        (heap (channel_closed_cb 3%nat "custom_tooltip_flutter"
                 (custom_tooltip_flutter_plugin_register_with_registrar
                    registrar empty_runtime))) a =
      instances (heap empty_runtime) a) /\
  (forall (m : FlBinaryMessenger) (n : string),
      channels
        (channel_closed_cb 3%nat "custom_tooltip_flutter"
           (custom_tooltip_flutter_plugin_register_with_registrar
              registrar empty_runtime)) m n =
      channels empty_runtime m n).
Proof.
  intros registrar. split; [reflexivity | split; [reflexivity |]].
  apply (closing_channel_frees_plugin registrar empty_runtime);
    reflexivity.
Defined.

(** X14: once registered, the plugin answers the calls of its channel.  A
    call that arrives under ["custom_tooltip_flutter"] on the registrar's
    messenger is handed to the handler with the registered object, which is
    alive; the run sends one response for the call: Success with ["Linux "]
    and the reported version when the call is named
    ["getPlatformVersion"], NotImplemented otherwise. *)
Theorem registered_plugin_answers_calls
    (registrar : FlPluginRegistrar) (rt : Runtime)
    (method_call : FlMethodCall) :
  channels rt (registrar_messenger registrar) "custom_tooltip_flutter"
    = None ->
  exists run : M unit,
    fl_method_channel_receive
      (custom_tooltip_flutter_plugin_register_with_registrar registrar rt)
      (registrar_messenger registrar) "custom_tooltip_flutter"
      method_call = Handled run /\
    forall w : World,
      (c_str (name method_call) = "getPlatformVersion" ->
       run w =
       (tt, after w method_call
              (FlMethodSuccessResponse
                 (FlString ("Linux " ++ reported_version (kernel w)))))) /\
      (c_str (name method_call) <> "getPlatformVersion" ->
       run w = (tt, after w method_call FlMethodNotImplementedResponse)).
Proof.
  intros Hfree.
  destruct (register_free registrar rt Hfree) as [Hi [_ Hc]].
  unfold fl_method_channel_receive, CUSTOM_TOOLTIP_FLUTTER_PLUGIN.
  rewrite Hc, Nat.eqb_refl, String.eqb_refl.
  cbn [andb plugin_channel channel_handler user_data handler].
  rewrite Hi, Nat.eqb_refl.
  eexists. split; [reflexivity |].
  intros w. unfold method_call_cb. split; intros Hname.
  - now apply handle_known.
  - now apply handle_unknown.
Qed.

Lemma registered_plugin_answers_calls_witness :
  let registrar := {| registrar_messenger := 3%nat |} in
  channels empty_runtime 3%nat "custom_tooltip_flutter" = None /\
  exists run : M unit,
    fl_method_channel_receive
      (custom_tooltip_flutter_plugin_register_with_registrar
         registrar empty_runtime)
      3%nat "custom_tooltip_flutter" call_version = Handled run /\
    forall w : World,
      (c_str (name call_version) = "getPlatformVersion" ->
       run w =
       (tt, after w call_version
              (FlMethodSuccessResponse
                 (FlString ("Linux " ++ reported_version (kernel w)))))) /\
      (c_str (name call_version) <> "getPlatformVersion" ->
       run w = (tt, after w call_version FlMethodNotImplementedResponse)).
Proof.
  intros registrar. split; [reflexivity |].
  apply (registered_plugin_answers_calls registrar empty_runtime
           call_version).
  reflexivity.
Defined.
